(** * The Paraboloid component of the OpenMDAO tutorial notebook

    Source: [src/Paraboloid.ipynb], class [Paraboloid(Component)] with its
    three methods [__init__], [solve_nonlinear] and [linearize], and the
    driver set-up of the optimisation runs (design-variable bounds and the
    constraint on [x - y]).

    The methods are written against whatever number objects they are handed
    (Python is duck typed: the code only uses [-], [+], [*] and [**]).  The
    embedding keeps that: the methods are polymorphic in an arithmetic
    interface [PyNum], instantiated
    - at [float], the binary64 numbers of Python, with rounding, infinities
      and the [OverflowError] that [**] raises,
    - at [R], the exact real numbers of the data model,
    - at [Q], exact and executable,
    - at [term], the free arithmetic, which records which operations a
      method performs. *)

From Stdlib Require Import Reals Lra Psatz QArith Qfield.
From Stdlib Require Import Floats.
From stdpp Require Import gmap strings.

Set Default Proof Using "Type".

(** ** The arithmetic the methods use *)

(** [flit z] is the float literal written [z.0] in the source.  [+], [-]
    and [*] always give a result.  [pow a n] is [a ** n] for a non-negative
    int literal [n]: it gives a result or raises [OverflowError], the one
    exception that [**] with such an exponent raises; [None] stands for
    it. *)
Class PyNum (T : Type) : Type := {
  flit : Z → T;
  add : T → T → T;
  sub : T → T → T;
  mul : T → T → T;
  pow : T → N → option T
}.

Declare Scope py_scope.
Delimit Scope py_scope with py.
Notation "a + b" := (add a b) : py_scope.
Notation "a - b" := (sub a b) : py_scope.
Notation "a * b" := (mul a b) : py_scope.

(** Exact numbers: a power never overflows. *)
#[export] Instance R_num : PyNum R := {|
  flit := IZR;
  add := Rplus;
  sub := Rminus;
  mul := Rmult;
  pow := fun a n => Some (Rpow_def.pow a (N.to_nat n))
|}.

#[export] Instance Q_num : PyNum Q := {|
  flit := inject_Z;
  add := Qplus;
  sub := Qminus;
  mul := Qmult;
  pow := fun a n => Some (Qpower a (Z.of_N n))
|}.

(** The free arithmetic: a value is the tree of operations that built it. *)
Inductive term : Type :=
  | TVar (name : string)
  | TLit (z : Z)
  | TAdd (a b : term)
  | TSub (a b : term)
  | TMul (a b : term)
  | TPow (a : term) (n : N).

#[export] Instance term_num : PyNum term := {|
  flit := TLit;
  add := TAdd;
  sub := TSub;
  mul := TMul;
  pow := fun a n => Some (TPow a n)
|}.

(** Number of applications of the power operator in a trace. *)
Fixpoint count_pow (t : term) : nat :=
  match t with
  | TVar _ | TLit _ => 0
  | TAdd a b | TSub a b | TMul a b => count_pow a + count_pow b
  | TPow a _ => S (count_pow a)
  end.

(** Number of multiplications in a trace. *)
Fixpoint count_mul (t : term) : nat :=
  match t with
  | TVar _ | TLit _ => 0
  | TAdd a b | TSub a b => count_mul a + count_mul b
  | TMul a b => S (count_mul a + count_mul b)
  | TPow a _ => count_mul a
  end.

(** ** Binary64 numbers *)

(** The float literal [z.0]; exact for the literals of the source, which are
    integers below 2^53. *)
Definition b64_lit (z : Z) : float :=
  match z with
  | Z0 => 0%float
  | Zpos p => PrimFloat.of_uint63 (Uint63.of_Z (Zpos p))
  | Zneg p => PrimFloat.opp (PrimFloat.of_uint63 (Uint63.of_Z (Zpos p)))
  end.

(** [a ** n] on a Python float [a], for an int [n >= 0] that is itself a
    binary64 number, as the literal 2 of the source is.  The interpreter
    and the C library are not part of the notebook; this follows the
    interpreter's float power: the exponent 0, a NaN, an infinite, a zero or
    a unit base are answered without the C library; otherwise the C
    library's [pow] is called on the absolute value of the base,
    [libm_pow m n] standing for [pow(m, (double) n)], and an infinite result
    is reported as [OverflowError]. *)
Definition b64_pow (libm_pow : float → N → float) (a : float) (n : N)
  : option float :=
  if (n =? 0)%N then Some 1%float
  else if PrimFloat.is_nan a then Some a
  else if PrimFloat.is_infinity a then
    Some (if N.odd n then a else PrimFloat.abs a)
  else if PrimFloat.is_zero a then
    Some (if N.odd n then a else 0%float)
  else
    let negate := PrimFloat.ltb a 0%float && N.odd n in
    let m := PrimFloat.abs a in
    if PrimFloat.eqb m 1%float then
      Some (if negate then (-1)%float else 1%float)
    else
      let r := libm_pow m n in
      if PrimFloat.is_infinity r then None
      else Some (if negate then PrimFloat.opp r else r).

(** Binary64 arithmetic over a given C library. *)
Definition b64_num (libm_pow : float → N → float) : PyNum float := {|
  flit := b64_lit;
  add := PrimFloat.add;
  sub := PrimFloat.sub;
  mul := PrimFloat.mul;
  pow := b64_pow libm_pow
|}.

(** A C library whose [pow] at exponent 2 is the correctly rounded square.
    Libraries differ from it in the last bit of some squares; the binary64
    runs evaluated below are at inputs where the squares are exact or
    overflow by hundreds of binary orders of magnitude, and the statements
    about all runs are made for every C library. *)
Definition libm_products (m : float) (n : N) : float :=
  N.iter n (fun r => (r * m)%float) 1%float.

#[export] Instance b64_products : PyNum float := b64_num libm_products.

(** ** The vectors a method receives, and the effects it has on them *)

(** [params], [unknowns] and [resids] are the three dictionaries passed to
    [solve_nonlinear] and [linearize]. *)
Record vecs (T : Type) : Type := Vecs {
  params : gmap string T;
  unknowns : gmap string T;
  resids : gmap string T
}.
Arguments Vecs {T} _ _ _.
Arguments params {T} _.
Arguments unknowns {T} _.
Arguments resids {T} _.

(** Reading a key that a dictionary does not hold raises [KeyError]; a power
    whose result is out of range raises [OverflowError]. *)
Inductive exn : Type :=
  | KeyError (key : string)
  | OverflowError.

(** A method body: it runs on the vectors, and ends with a value or an
    exception; the vectors survive either way. *)
Definition M (T A : Type) : Type := vecs T → (exn + A) * vecs T.

#[export] Instance M_ret {T} : MRet (M T) := fun A a s => (inr a, s).

#[export] Instance M_bind {T} : MBind (M T) := fun A B k m s =>
  match m s with
  | (inr a, s') => k a s'
  | (inl e, s') => (inl e, s')
  end.

(** [params[key]] *)
Definition getitem_params {T} (key : string) : M T T := fun s =>
  match params s !! key with
  | Some v => (inr v, s)
  | None => (inl (KeyError key), s)
  end.

(** [unknowns[key] = v] *)
Definition setitem_unknowns {T} (key : string) (v : T) : M T unit := fun s =>
  (inr tt, Vecs (params s) (<[key := v]> (unknowns s)) (resids s)).

(** [a ** n] inside a method body. *)
Definition py_pow {T} `{PyNum T} (a : T) (n : N) : M T T := fun s =>
  match pow a n with
  | Some v => (inr v, s)
  | None => (inl OverflowError, s)
  end.

Notation "a ** n" := (py_pow a n) (at level 30, right associativity) : py_scope.

(** ** The component *)

Section Paraboloid.
Context {T : Type} `{PyNum T}.

Local Open Scope py_scope.

(** [solve_nonlinear(self, params, unknowns, resids)].  The right-hand side
    [(x-3.0)**2 + x*y + (y+4.0)**2 - 3.0] is evaluated from left to right;
    only [**] can raise, so the two powers are named in the order in which
    they are computed, and the assignment happens last. *)
Definition solve_nonlinear : M T unit :=
  x ← getitem_params "x";
  y ← getitem_params "y";
  sq_x ← (x - flit 3) ** 2;
  sq_y ← (y + flit 4) ** 2;
  setitem_unknowns "f_xy" (sq_x + x * y + sq_y - flit 3).

(** [linearize(self, params, unknowns, resids)]; the dictionary [J] starts
    empty and is returned. *)
Definition linearize : M T (gmap (string * string) T) :=
  x ← getitem_params "x";
  y ← getitem_params "y";
  let J : gmap (string * string) T := ∅ in
  let J := <[("f_xy", "x") := flit 2 * x - flit 6 + y]> J in
  let J := <[("f_xy", "y") := flit 2 * y + flit 8 + x]> J in
  mret J.

End Paraboloid.

(** ** Declaration and set-up of the component *)

(** The base class [Component], [add_param], [add_output] and [setup] belong
    to the framework, whose code is not part of the notebook.  They are
    modelled from the notebook's text: "This code defines the input parameters
    of the Component, x and y, and initializes them to 0.0", "If shape is 1,
    the value is initialized to 0.0, a scalar", "All unconnected params use
    their default value as the initial value". *)

(** What [add_param] and [add_output] record: the default value of each
    parameter and the shape of each output. *)
Record component (T : Type) : Type := Component {
  init_params_dict : gmap string T;
  init_unknowns_dict : gmap string N
}.
Arguments Component {T} _ _.
Arguments init_params_dict {T} _.
Arguments init_unknowns_dict {T} _.

(** [self.add_param(name, val=val)] *)
Definition add_param {T} (name : string) (val : T) (c : component T)
  : component T :=
  Component (<[name := val]> (init_params_dict c)) (init_unknowns_dict c).

(** [self.add_output(name, shape=shape)] *)
Definition add_output {T} (name : string) (shape : N) (c : component T)
  : component T :=
  Component (init_params_dict c) (<[name := shape]> (init_unknowns_dict c)).

(** [Paraboloid.__init__]; the base class starts with nothing declared. *)
Definition Paraboloid__init__ {T} `{PyNum T} : component T :=
  add_output "f_xy" 1
    (add_param "y" (flit 0)
      (add_param "x" (flit 0)
        (Component ∅ ∅))).

(** [top.setup()], as far as the notebook describes it: every parameter
    starts at its default value, and an output of shape 1 starts as the
    scalar 0.0.  Outputs of another shape are arrays and are not held by the
    scalar vectors of this model; the notebook says nothing about the
    residuals, which no method reads, and they start empty. *)
Definition setup {T} `{PyNum T} (c : component T) : vecs T :=
  Vecs (init_params_dict c)
       (omap (fun shape : N => if decide (shape = 1%N) then Some (flit 0) else None)
             (init_unknowns_dict c))
       ∅.

(** [top[name] = v] for a parameter, as in [top['x'] = 5.0]. *)
Definition set_param {T} (name : string) (v : T) (s : vecs T) : vecs T :=
  Vecs (<[name := v]> (params s)) (unknowns s) (resids s).

Section Driver.
Context {T : Type} `{PyNum T}.

(** The vectors of a set-up component once [(x, y)] has been supplied, as in
    the second run of the notebook ([top['x'] = 5.0], [top['y'] = 2.0]). *)
Definition supplied (x y : T) : vecs T :=
  set_param "y" y (set_param "x" x (setup Paraboloid__init__)).

(** The value read back as [top['p.f_xy']] after [solve_nonlinear] has run.
    It is what the run stored whenever the run ends normally, which is
    always the case over exact numbers ([objective_R] below); after an
    exception nothing is read back in Python, and this is the value that
    set-up left in place. *)
Definition objective (x y : T) : T :=
  default (flit 0) (unknowns (solve_nonlinear (supplied x y)).2 !! "f_xy").

(** The two entries a driver reads from the dictionary that [linearize]
    returns. *)
Definition gradient (x y : T) : option (T * T) :=
  match (linearize (supplied x y)).1 with
  | inr J =>
      dx ← J !! ("f_xy", "x");
      dy ← J !! ("f_xy", "y");
      Some (dx, dy)
  | inl _ => None
  end.

(** [ExecComp('c = x-y')] *)
Definition con_c (x y : T) : T := (x - y)%py.

End Driver.

(** The constrained run: [add_desvar(..., lower=-50, upper=50)] for both
    design variables and [add_constraint('con.c', lower=15.0)]. *)
Definition desvar_lower : Z := -50.
Definition desvar_upper : Z := 50.
Definition constraint_lower : Z := 15.

Definition feasible (x y : R) : Prop :=
  (IZR desvar_lower <= x <= IZR desvar_upper)%R ∧
  (IZR desvar_lower <= y <= IZR desvar_upper)%R ∧
  (IZR constraint_lower <= con_c x y)%R.

(** ** The evaluator with every square written as a product

    This is the form the specification describes ("implemented as
    multiplication, not a general power routine"); it is compared with
    [solve_nonlinear] below. *)
Section MultiplicationForm.
Context {T : Type} `{PyNum T}.
Local Open Scope py_scope.

Definition solve_nonlinear_mul : M T unit :=
  x ← getitem_params "x";
  y ← getitem_params "y";
  setitem_unknowns "f_xy"
    ((x - flit 3) * (x - flit 3) + x * y + (y + flit 4) * (y + flit 4) - flit 3).

End MultiplicationForm.

(** ** Reference definitions and sample vectors *)

(** The equation in the docstrings of the class and of [solve_nonlinear]:
    f(x,y) = (x-3)^2 + xy + (y+4)^2 - 3. *)
Definition f_doc (x y : R) : R := ((x - 3) ^ 2 + x * y + (y + 4) ^ 2 - 3)%R.

(** The central-difference quotient of [f] at [t] with step [h]. *)
Definition central_difference (f : R → R) (t h : R) : R :=
  ((f (t + h) - f (t - h)) / (2 * h))%R.

(** The same quotient computed in binary64. *)
Definition central_difference_b64 (f : float → float) (t h : float) : float :=
  ((f (t + h) - f (t - h)) / (2 * h))%float.

(** The test "within relative tolerance [tol]" in binary64:
    [abs(approx - exact) <= tol * abs(exact)]. *)
Definition within_rel_tol_b64 (tol approx exact : float) : bool :=
  PrimFloat.leb (PrimFloat.abs (approx - exact))
                (tol * PrimFloat.abs exact)%float.

(** The first run of the notebook: x = 3, y = -4. *)
Definition first_run : vecs R :=
  Vecs {[ "x" := 3%R; "y" := (-4)%R ]} {[ "f_xy" := 0%R ]} ∅.

(** Two sets of vectors that agree on the parameters and on nothing else. *)
Definition vecs_a : vecs Q :=
  Vecs {[ "x" := 5%Q; "y" := 2%Q ]} {[ "f_xy" := 0%Q ]} ∅.
Definition vecs_b : vecs Q :=
  Vecs {[ "x" := 5%Q; "y" := 2%Q; "z" := 9%Q ]}
       {[ "f_xy" := 1%Q; "g" := 7%Q ]}
       {[ "f_xy" := 3%Q ]}.

(** Binary64 vectors with a finite parameter whose square is out of range:
    2^600 is finite, its square 2^1200 is not a binary64 number. *)
Definition vecs_big_x : vecs float :=
  Vecs {[ "x" := 0x1p600%float; "y" := 0%float ]} {[ "f_xy" := 0%float ]} ∅.
Definition vecs_big_y : vecs float :=
  Vecs {[ "x" := 0%float; "y" := 0x1p600%float ]} {[ "f_xy" := 0%float ]} ∅.

(** The binary64 number nearest to 1e-16. *)
Definition step_1e_16 : float := 0x1.cd2b297d889bcp-54%float.

(** The binary64 number nearest to 1e-6. *)
Definition tol_1e_6 : float := 0x1.0c6f7a0b5ed8dp-20%float.

(** ** The other optimisation runs *)

(** The unconstrained optimisation run: [add_desvar('p1.x', lower=-50,
    upper=50)] and [add_desvar('p2.y', lower=-50, upper=50)], no constraint. *)
Definition in_bounds (x y : R) : Prop :=
  (IZR desvar_lower <= x <= IZR desvar_upper)%R ∧
  (IZR desvar_lower <= y <= IZR desvar_upper)%R.

(** The last run: [add_constraint('con.c', lower=15.0, upper=16.0)]. *)
Definition band_lower : Z := 15.
Definition band_upper : Z := 16.

Definition feasible_band (x y : R) : Prop :=
  in_bounds x y ∧ (IZR band_lower <= con_c x y <= IZR band_upper)%R.

(** Vectors that lack a parameter. *)
Definition vecs_no_x : vecs Q := Vecs {[ "y" := 2%Q ]} {[ "f_xy" := 1%Q ]} ∅.
Definition vecs_no_y : vecs Q := Vecs {[ "x" := 5%Q ]} {[ "f_xy" := 1%Q ]} ∅.

(** ** Runs on concrete inputs *)

Example run_Q_0_0 : objective 0%Q 0%Q = 22%Q.
Proof. vm_compute. reflexivity. Qed.

Example run_Q_3_m4 : objective 3%Q (-4)%Q = (-15)%Q.
Proof. vm_compute. reflexivity. Qed.

Example run_Q_5_2 : objective 5%Q 2%Q = 47%Q.
Proof. vm_compute. reflexivity. Qed.

Example run_Q_minimum : (objective (20 # 3) (-22 # 3) == -82 # 3)%Q.
Proof. vm_compute. reflexivity. Qed.

Example run_Q_gradient_3_m4 : gradient 3%Q (-4)%Q = Some ((-4)%Q, 3%Q).
Proof. vm_compute. reflexivity. Qed.

Example run_trace :
  objective (TVar "x") (TVar "y")
  = TSub (TAdd (TAdd (TPow (TSub (TVar "x") (TLit 3)) 2)
                     (TMul (TVar "x") (TVar "y")))
               (TPow (TAdd (TVar "y") (TLit 4)) 2))
         (TLit 3).
Proof. vm_compute. reflexivity. Qed.

Example run_missing_param :
  (solve_nonlinear (T := Q) (Vecs {["x" := 1%Q]} ∅ ∅)).1 = inl (KeyError "y").
Proof. vm_compute. reflexivity. Qed.

(** The three runs of the notebook's first two cells, in binary64. *)
Example run_b64_3_m4 : objective 3%float (-4)%float = (-15)%float.
Proof. vm_compute. reflexivity. Qed.

Example run_b64_5_2 : objective 5%float 2%float = 47%float.
Proof. vm_compute. reflexivity. Qed.

Example run_b64_overflow :
  solve_nonlinear vecs_big_x = (inl OverflowError, vecs_big_x).
Proof. vm_compute. reflexivity. Qed.

Example run_b64_infinite_input :
  unknowns (solve_nonlinear (supplied infinity 1%float)).2 !! "f_xy"
  = Some infinity.
Proof. vm_compute. reflexivity. Qed.

(** ** What a run of each method does, in any arithmetic *)

Section Runs.
Context {T : Type} `{PyNum T}.
Implicit Types (s : vecs T) (x y a b : T).

Local Open Scope py_scope.

Lemma solve_nonlinear_run s x y a b :
  params s !! "x" = Some x →
  params s !! "y" = Some y →
  pow (x - flit 3) 2 = Some a →
  pow (y + flit 4) 2 = Some b →
  solve_nonlinear s
  = (inr tt,
     Vecs (params s)
          (<["f_xy" := a + x * y + b - flit 3]> (unknowns s))
          (resids s)).
Proof.
  intros Hx Hy Ha Hb.
  unfold solve_nonlinear, mbind, M_bind, getitem_params, py_pow, setitem_unknowns.
  by rewrite Hx, Hy, Ha, Hb.
Qed.

Lemma solve_nonlinear_overflow s x y :
  params s !! "x" = Some x →
  params s !! "y" = Some y →
  pow (x - flit 3) 2 = None ∨ pow (y + flit 4) 2 = None →
  solve_nonlinear s = (inl OverflowError, s).
Proof.
  intros Hx Hy Hp.
  unfold solve_nonlinear, mbind, M_bind, getitem_params, py_pow, setitem_unknowns.
  rewrite Hx, Hy.
  destruct (pow (x - flit 3) 2) as [a|]; [|done].
  destruct Hp as [Hp|Hp]; [done|]. by rewrite Hp.
Qed.

Lemma solve_nonlinear_mul_run s x y :
  params s !! "x" = Some x →
  params s !! "y" = Some y →
  solve_nonlinear_mul s
  = (inr tt,
     Vecs (params s)
          (<["f_xy" := (x - flit 3) * (x - flit 3) + x * y
                       + (y + flit 4) * (y + flit 4) - flit 3]>
             (unknowns s))
          (resids s)).
Proof.
  intros Hx Hy.
  unfold solve_nonlinear_mul, mbind, M_bind, getitem_params, setitem_unknowns.
  by rewrite Hx, Hy.
Qed.

Lemma linearize_run s x y :
  params s !! "x" = Some x →
  params s !! "y" = Some y →
  linearize s
  = (inr (<[("f_xy", "y") := flit 2 * y + flit 8 + x]>
            (<[("f_xy", "x") := flit 2 * x - flit 6 + y]> ∅)),
     s).
Proof.
  intros Hx Hy.
  unfold linearize, mbind, M_bind, getitem_params, mret, M_ret.
  by rewrite Hx, Hy.
Qed.

(** The three ways a run of [solve_nonlinear] can go: both parameters are
    there and both squares are in range; both parameters are there and a
    square is out of range; a parameter is missing. *)
Lemma solve_nonlinear_cases s :
  (∃ x y a b, params s !! "x" = Some x ∧ params s !! "y" = Some y
              ∧ pow (x - flit 3) 2 = Some a ∧ pow (y + flit 4) 2 = Some b)
  ∨ (∃ x y, params s !! "x" = Some x ∧ params s !! "y" = Some y
            ∧ (pow (x - flit 3) 2 = None ∨ pow (y + flit 4) 2 = None))
  ∨ (∃ k, (k = "x" ∨ k = "y") ∧ params s !! k = None
          ∧ solve_nonlinear s = (inl (KeyError k), s)
          ∧ solve_nonlinear_mul s = (inl (KeyError k), s)
          ∧ linearize s = (inl (KeyError k), s)).
Proof.
  destruct (params s !! "x") as [x|] eqn:Hx;
    [destruct (params s !! "y") as [y|] eqn:Hy|].
  - destruct (pow (x - flit 3) 2) as [a|] eqn:Ha;
      [destruct (pow (y + flit 4) 2) as [b|] eqn:Hb|].
    + left. exists x, y, a, b. done.
    + right. left. exists x, y. eauto.
    + right. left. exists x, y. eauto.
  - right. right. exists "y". split; [by right|]. split; [done|].
    unfold solve_nonlinear, solve_nonlinear_mul, linearize,
      mbind, M_bind, getitem_params.
    by rewrite Hx, Hy.
  - right. right. exists "x". split; [by left|]. split; [done|].
    unfold solve_nonlinear, solve_nonlinear_mul, linearize,
      mbind, M_bind, getitem_params.
    by rewrite Hx.
Qed.

(** Whatever the run, the vectors afterwards are the vectors before with at
    most [unknowns['f_xy']] replaced. *)
Lemma solve_nonlinear_outcome s :
  (∃ v, solve_nonlinear s
        = (inr tt, Vecs (params s) (<["f_xy" := v]> (unknowns s)) (resids s)))
  ∨ (∃ e, solve_nonlinear s = (inl e, s)).
Proof.
  destruct (solve_nonlinear_cases s)
    as [(x & y & a & b & Hx & Hy & Ha & Hb)
       |[(x & y & Hx & Hy & Hp)|(k & _ & _ & E & _)]].
  - left. eexists. by apply (solve_nonlinear_run s x y a b).
  - right. eexists. by apply (solve_nonlinear_overflow s x y).
  - right. eauto.
Qed.

Lemma run_missing_x s :
  params s !! "x" = None →
  solve_nonlinear s = (inl (KeyError "x"), s)
  ∧ linearize s = (inl (KeyError "x"), s).
Proof.
  intros Hx.
  unfold solve_nonlinear, linearize, mbind, M_bind, getitem_params.
  by rewrite Hx.
Qed.

Lemma run_missing_y s x :
  params s !! "x" = Some x →
  params s !! "y" = None →
  solve_nonlinear s = (inl (KeyError "y"), s)
  ∧ linearize s = (inl (KeyError "y"), s).
Proof.
  intros Hx Hy.
  unfold solve_nonlinear, linearize, mbind, M_bind, getitem_params.
  by rewrite Hx, Hy.
Qed.

Lemma supplied_x x y : params (supplied x y) !! "x" = Some x.
Proof.
  unfold supplied, set_param; simpl.
  rewrite lookup_insert_ne by done. apply lookup_insert_eq.
Qed.

Lemma supplied_y x y : params (supplied x y) !! "y" = Some y.
Proof. unfold supplied, set_param; simpl. apply lookup_insert_eq. Qed.

Lemma objective_eq x y a b :
  pow (x - flit 3) 2 = Some a →
  pow (y + flit 4) 2 = Some b →
  objective x y = a + x * y + b - flit 3.
Proof.
  intros Ha Hb. unfold objective.
  rewrite (solve_nonlinear_run _ x y a b (supplied_x x y) (supplied_y x y) Ha Hb).
  cbn [snd unknowns]. by rewrite lookup_insert_eq.
Qed.

Lemma gradient_eq x y :
  gradient x y
  = Some (flit 2 * x - flit 6 + y, flit 2 * y + flit 8 + x).
Proof.
  unfold gradient.
  rewrite (linearize_run _ x y (supplied_x x y) (supplied_y x y)); cbn [fst].
  rewrite lookup_insert_eq, lookup_insert_ne, lookup_insert_eq by done.
  done.
Qed.

End Runs.

(** In every binary64 arithmetic, whatever the C library, a power gives a
    result unless the C library returns an infinity for a finite base. *)
Lemma b64_pow_overflow libm (a : float) (n : N) :
  b64_pow libm a n = None →
  PrimFloat.is_nan a = false ∧ PrimFloat.is_infinity a = false
  ∧ PrimFloat.is_infinity (libm (PrimFloat.abs a) n) = true.
Proof.
  unfold b64_pow. intros Hp.
  destruct (n =? 0)%N; [done|].
  destruct (PrimFloat.is_nan a); [done|].
  destruct (PrimFloat.is_infinity a); [done|].
  destruct (PrimFloat.is_zero a); [done|].
  destruct (PrimFloat.eqb (PrimFloat.abs a) 1); [done|].
  destruct (PrimFloat.is_infinity (libm (PrimFloat.abs a) n)); done.
Qed.

(** ** Properties that hold in every arithmetic *)

Section AnyArithmetic.
Context {T : Type} `{PyNum T}.
Implicit Types (s : vecs T) (x y : T).

(** C6. Both evaluators are functions of the two parameters only: two runs
    on vectors that agree on [params['x']] and [params['y']] end the same
    way, store the same [f_xy] and return the same derivative dictionary,
    whatever else the vectors hold; and running an evaluator again on the
    vectors that an earlier run left behind gives the same outcome and the
    same vectors, so no run depends on an earlier one. *)
Theorem evaluators_deterministic s1 s2 :
  params s1 !! "x" = params s2 !! "x" →
  params s1 !! "y" = params s2 !! "y" →
  (solve_nonlinear s1).1 = (solve_nonlinear s2).1
  ∧ ((solve_nonlinear s1).1 = inr tt →
     unknowns (solve_nonlinear s1).2 !! "f_xy"
     = unknowns (solve_nonlinear s2).2 !! "f_xy")
  ∧ (linearize s1).1 = (linearize s2).1
  ∧ solve_nonlinear (solve_nonlinear s1).2 = solve_nonlinear s1
  ∧ linearize (linearize s1).2 = linearize s1
  ∧ (linearize (solve_nonlinear s1).2).1 = (linearize s1).1.
Proof.
  intros Hx Hy.
  destruct (params s1 !! "x") as [x|] eqn:Hx1;
    [destruct (params s1 !! "y") as [y|] eqn:Hy1|].
  - symmetry in Hx, Hy.
    rewrite (linearize_run s1 x y), (linearize_run s2 x y) by done.
    cbn [fst snd]. rewrite (linearize_run s1 x y) by done.
    destruct (pow (x - flit 3)%py 2) as [a|] eqn:Ha;
      [destruct (pow (y + flit 4)%py 2) as [b|] eqn:Hb|].
    + rewrite (solve_nonlinear_run s1 x y a b),
        (solve_nonlinear_run s2 x y a b) by done.
      cbn [fst snd unknowns]. rewrite !lookup_insert_eq.
      rewrite (solve_nonlinear_run _ x y a b), (linearize_run _ x y) by done.
      cbn [fst snd unknowns params resids].
      by rewrite insert_insert_eq.
    + rewrite (solve_nonlinear_overflow s1 x y),
        (solve_nonlinear_overflow s2 x y) by auto.
      cbn [fst snd].
      rewrite (solve_nonlinear_overflow s1 x y), (linearize_run s1 x y) by auto.
      repeat split; done.
    + rewrite (solve_nonlinear_overflow s1 x y),
        (solve_nonlinear_overflow s2 x y) by auto.
      cbn [fst snd].
      rewrite (solve_nonlinear_overflow s1 x y), (linearize_run s1 x y) by auto.
      repeat split; done.
  - symmetry in Hx, Hy.
    destruct (run_missing_y s1 x Hx1 Hy1) as [E1 L1].
    destruct (run_missing_y s2 x Hx Hy) as [E2 L2].
    rewrite E1, E2, L1, L2. cbn [fst snd]. rewrite E1, L1.
    repeat split; done.
  - symmetry in Hx.
    destruct (run_missing_x s1 Hx1) as [E1 L1].
    destruct (run_missing_x s2 Hx) as [E2 L2].
    rewrite E1, E2, L1, L2. cbn [fst snd]. rewrite E1, L1.
    repeat split; done.
Qed.

(** C7, amended. [linearize] is total on a pair of inputs: whenever the
    vectors hold the two parameters it returns its dictionary, with both
    entries, and its only error branch is a missing parameter.
    [solve_nonlinear] on such vectors either ends normally, having stored
    [f_xy], or raises the [OverflowError] of a square that is out of range,
    and then stores nothing; it raises [KeyError] only for a missing
    parameter.  Over the real numbers no square is out of range and
    [solve_nonlinear] is total as well; in binary64, whatever the C library,
    a square raises only for a finite base. *)
Theorem evaluators_total :
  (∀ s x y,
      params s !! "x" = Some x →
      params s !! "y" = Some y →
      (∃ J, linearize s = (inr J, s)
            ∧ is_Some (J !! ("f_xy", "x")) ∧ is_Some (J !! ("f_xy", "y")))
      ∧ (((solve_nonlinear s).1 = inr tt
          ∧ is_Some (unknowns (solve_nonlinear s).2 !! "f_xy"))
         ∨ (solve_nonlinear s = (inl OverflowError, s)
            ∧ (pow (x - flit 3)%py 2 = None ∨ pow (y + flit 4)%py 2 = None))))
  ∧ (∀ s k,
      (solve_nonlinear s).1 = inl (KeyError k) ∨ (linearize s).1 = inl (KeyError k) →
      params s !! k = None)
  ∧ (∀ s, (linearize s).1 ≠ inl OverflowError)
  ∧ (∀ (s : vecs R) (x y : R),
      params s !! "x" = Some x →
      params s !! "y" = Some y →
      (solve_nonlinear s).1 = inr tt
      ∧ is_Some (unknowns (solve_nonlinear s).2 !! "f_xy"))
  ∧ (∀ libm (s : vecs float) (x y : float),
      params s !! "x" = Some x →
      params s !! "y" = Some y →
      @solve_nonlinear float (b64_num libm) s = (inl OverflowError, s) →
      (PrimFloat.is_finite (x - 3)%float = true
       ∧ PrimFloat.is_infinity (libm (PrimFloat.abs (x - 3)%float) 2%N) = true)
      ∨ (PrimFloat.is_finite (y + 4)%float = true
         ∧ PrimFloat.is_infinity (libm (PrimFloat.abs (y + 4)%float) 2%N) = true)).
Proof.
  assert (Hgen : ∀ (U : Type) (HU : PyNum U) (s : vecs U) (x y : U),
      params s !! "x" = Some x →
      params s !! "y" = Some y →
      ((solve_nonlinear s).1 = inr tt
       ∧ is_Some (unknowns (solve_nonlinear s).2 !! "f_xy"))
      ∨ (solve_nonlinear s = (inl OverflowError, s)
         ∧ (pow (x - flit 3)%py 2 = None ∨ pow (y + flit 4)%py 2 = None))).
  { intros U HU s x y Hx Hy.
    destruct (pow (x - flit 3)%py 2) as [a|] eqn:Ha;
      [destruct (pow (y + flit 4)%py 2) as [b|] eqn:Hb|].
    - left. rewrite (solve_nonlinear_run s x y a b) by done.
      cbn [fst snd unknowns]. rewrite lookup_insert_eq. eauto.
    - right. split; [|by right].
      apply (solve_nonlinear_overflow s x y); auto.
    - right. split; [|by left].
      apply (solve_nonlinear_overflow s x y); auto. }
  split; [|split; [|split; [|split]]].
  - intros s x y Hx Hy. split; [|by apply Hgen].
    rewrite (linearize_run s x y) by done. eexists. split; [done|].
    rewrite lookup_insert_ne, !lookup_insert_eq by done. eauto.
  - intros s k Hk.
    destruct (params s !! "x") as [x|] eqn:Hx;
      [destruct (params s !! "y") as [y|] eqn:Hy|].
    + rewrite (linearize_run s x y) in Hk by done.
      destruct (Hgen T _ s x y Hx Hy) as [[E _]|[E _]]; rewrite E in Hk;
        destruct Hk as [Hk|Hk]; discriminate Hk.
    + destruct (run_missing_y s x Hx Hy) as [E L]. rewrite E, L in Hk.
      destruct Hk as [[= <-]|[= <-]]; done.
    + destruct (run_missing_x s Hx) as [E L]. rewrite E, L in Hk.
      destruct Hk as [[= <-]|[= <-]]; done.
  - intros s.
    destruct (params s !! "x") as [x|] eqn:Hx;
      [destruct (params s !! "y") as [y|] eqn:Hy|].
    + by rewrite (linearize_run s x y).
    + by rewrite (proj2 (run_missing_y s x Hx Hy)).
    + by rewrite (proj2 (run_missing_x s Hx)).
  - intros s x y Hx Hy.
    destruct (Hgen R _ s x y Hx Hy) as [Hok|[_ [Hp|Hp]]]; [done| |];
      discriminate Hp.
  - intros libm s x y Hx Hy E.
    destruct (Hgen float (b64_num libm) s x y Hx Hy) as [[Hok _]|[_ Hp]].
    + rewrite E in Hok. discriminate Hok.
    + destruct Hp as [Hp|Hp]; apply b64_pow_overflow in Hp as (Hn & Hi & Hr);
        [left|right]; (split; [|exact Hr]); unfold PrimFloat.is_finite;
        cbn in Hn, Hi |- *; by rewrite Hn, Hi.
Qed.


End AnyArithmetic.

(** ** Properties over the real numbers *)

Section Reals.
Implicit Types (s : vecs R) (x y h : R).
Local Open Scope R_scope.

Lemma pow_R (a : R) (n : N) : pow a n = Some (a ^ N.to_nat n).
Proof. reflexivity. Qed.

Lemma objective_R x y : objective x y = f_doc x y.
Proof.
  rewrite (objective_eq x y ((x - 3) ^ 2) ((y + 4) ^ 2)
             (pow_R _ 2) (pow_R _ 2)).
  reflexivity.
Qed.

Lemma gradient_R x y : gradient x y = Some (2 * x - 6 + y, 2 * y + 8 + x).
Proof. rewrite gradient_eq. reflexivity. Qed.

Lemma f_doc_partial_x x y :
  derivable_pt_lim (fun t => f_doc t y) x (2 * x - 6 + y).
Proof.
  intros eps Heps. exists (mkposreal eps Heps). intros h Hh Hlt.
  simpl in Hlt. unfold f_doc.
  replace (_ - (2 * x - 6 + y)) with h by (field; exact Hh).
  exact Hlt.
Qed.

Lemma f_doc_partial_y x y :
  derivable_pt_lim (fun t => f_doc x t) y (2 * y + 8 + x).
Proof.
  intros eps Heps. exists (mkposreal eps Heps). intros h Hh Hlt.
  simpl in Hlt. unfold f_doc.
  replace (_ - (2 * y + 8 + x)) with h by (field; exact Hh).
  exact Hlt.
Qed.

(** C1, as stated, fails: with both parameters present and finite, x = 2^600
    and y = 0, the square (x-3.0)**2 is out of the binary64 range, the run
    raises [OverflowError] and [unknowns['f_xy']] keeps its old value; and
    this is so for every C library that returns an infinity for that
    square. *)
Lemma solve_nonlinear_raises_at_2p600 :
  params vecs_big_x !! "x" = Some 0x1p600%float
  ∧ params vecs_big_x !! "y" = Some 0%float
  ∧ PrimFloat.is_finite 0x1p600%float = true
  ∧ solve_nonlinear vecs_big_x = (inl OverflowError, vecs_big_x)
  ∧ unknowns (solve_nonlinear vecs_big_x).2 !! "f_xy" = Some 0%float
  ∧ (∀ libm,
       PrimFloat.is_infinity (libm 0x1p600%float 2%N) = true →
       @solve_nonlinear float (b64_num libm) vecs_big_x
       = (inl OverflowError, vecs_big_x)).
Proof.
  split; [reflexivity|]. split; [reflexivity|]. split; [reflexivity|].
  split; [vm_compute; reflexivity|]. split; [vm_compute; reflexivity|].
  intros libm Hinf.
  apply (@solve_nonlinear_overflow float (b64_num libm) vecs_big_x
           0x1p600%float 0%float); [reflexivity | reflexivity |].
  left. cbn [pow b64_num flit sub]. unfold b64_pow.
  change (0x1p600 - b64_lit 3)%float with 0x1p600%float.
  change (PrimFloat.abs 0x1p600) with 0x1p600%float.
  rewrite Hinf. reflexivity.
Qed.

(** C1, amended. Whenever the vectors hold [x] and [y] and neither
    (x-3.0)**2 nor (y+4.0)**2 is out of range, [solve_nonlinear] ends
    normally with [unknowns['f_xy']] equal to (x-3)**2 + x*y + (y+4)**2 - 3
    computed in the arithmetic of its inputs; when a square is out of range
    it raises [OverflowError] and stores nothing.  Over the real numbers no
    square is out of range and the stored value is exactly
    (x-3)^2 + x*y + (y+4)^2 - 3 for every [(x, y)].  The value is 22 at
    (0,0), -15 at (3,-4) and 47 at (5,2), over the real numbers and in
    binary64. *)
Theorem solve_nonlinear_closed_form :
  (∀ s x y,
      params s !! "x" = Some x →
      params s !! "y" = Some y →
      (solve_nonlinear s).1 = inr tt
      ∧ unknowns (solve_nonlinear s).2 !! "f_xy"
        = Some ((x - 3) ^ 2 + x * y + (y + 4) ^ 2 - 3))
  ∧ (∀ x y, objective x y = (x - 3) ^ 2 + x * y + (y + 4) ^ 2 - 3)
  ∧ objective 0 0 = 22
  ∧ objective 3 (-4) = -15
  ∧ objective 5 2 = 47
  ∧ (∀ (U : Type) (HU : PyNum U) (s : vecs U) (x y a b : U),
      params s !! "x" = Some x →
      params s !! "y" = Some y →
      pow (x - flit 3)%py 2 = Some a →
      pow (y + flit 4)%py 2 = Some b →
      (solve_nonlinear s).1 = inr tt
      ∧ unknowns (solve_nonlinear s).2 !! "f_xy"
        = Some (a + x * y + b - flit 3)%py)
  ∧ (∀ (U : Type) (HU : PyNum U) (s : vecs U) (x y : U),
      params s !! "x" = Some x →
      params s !! "y" = Some y →
      pow (x - flit 3)%py 2 = None ∨ pow (y + flit 4)%py 2 = None →
      solve_nonlinear s = (inl OverflowError, s))
  ∧ objective 0%float 0%float = 22%float
  ∧ objective 3%float (-4)%float = (-15)%float
  ∧ objective 5%float 2%float = 47%float.
Proof.
  split; [|split; [|split; [|split; [|split; [|split; [|split]]]]]].
  - intros s x y Hx Hy.
    rewrite (solve_nonlinear_run s x y ((x - 3) ^ 2) ((y + 4) ^ 2)
               Hx Hy (pow_R _ 2) (pow_R _ 2)).
    cbn [fst snd unknowns]. by rewrite lookup_insert_eq.
  - intros x y. apply objective_R.
  - rewrite objective_R. unfold f_doc. lra.
  - rewrite objective_R. unfold f_doc. lra.
  - rewrite objective_R. unfold f_doc. lra.
  - intros U HU s x y a b Hx Hy Ha Hb.
    rewrite (solve_nonlinear_run s x y a b) by done.
    cbn [fst snd unknowns]. by rewrite lookup_insert_eq.
  - intros U HU s x y Hx Hy Hp. by apply (solve_nonlinear_overflow s x y).
  - repeat split; vm_compute; reflexivity.
Qed.

(** C2. Whenever the vectors hold [x] and [y], [linearize] returns a
    dictionary with J['f_xy','x'] = 2x - 6 + y and J['f_xy','y'] =
    2y + 8 + x, and these two numbers are the partial derivatives at
    [(x, y)] of the objective expression (x-3)^2 + xy + (y+4)^2 - 3, that is,
    the limits of its difference quotients and not a quotient at some step. *)
Theorem linearize_exact_gradient s x y :
  params s !! "x" = Some x →
  params s !! "y" = Some y →
  (∃ J, (linearize s).1 = inr J
        ∧ J !! ("f_xy", "x") = Some (2 * x - 6 + y)
        ∧ J !! ("f_xy", "y") = Some (2 * y + 8 + x))
  ∧ gradient x y = Some (2 * x - 6 + y, 2 * y + 8 + x)
  ∧ derivable_pt_lim (fun t => f_doc t y) x (2 * x - 6 + y)
  ∧ derivable_pt_lim (fun t => f_doc x t) y (2 * y + 8 + x)
  ∧ derivable_pt_lim (fun t => objective t y) x (2 * x - 6 + y)
  ∧ derivable_pt_lim (fun t => objective x t) y (2 * y + 8 + x).
Proof.
  intros Hx Hy. split; [|split; [apply gradient_R|]].
  - rewrite (linearize_run s x y) by done. eexists. split; [done|].
    rewrite lookup_insert_ne, !lookup_insert_eq by done. done.
  - pose proof (f_doc_partial_x x y) as Dx.
    pose proof (f_doc_partial_y x y) as Dy.
    split; [exact Dx|]. split; [exact Dy|]. split.
    + intros eps Heps. destruct (Dx eps Heps) as [d Hd]. exists d.
      intros h. rewrite !objective_R. apply Hd.
    + intros eps Heps. destruct (Dy eps Heps) as [d Hd]. exists d.
      intros h. rewrite !objective_R. apply Hd.
Qed.

(** C3. The two entries of the Jacobian vanish together at (20/3, -22/3)
    and nowhere else; the objective there is -82/3, and no point has a
    smaller objective.  In decimals the point is (6.666667, -7.333333) and
    the value -27.3333, up to the last digit shown. *)
Theorem unconstrained_minimum :
  (∀ x y, gradient x y = Some (0, 0) ↔ x = 20 / 3 ∧ y = -22 / 3)
  ∧ objective (20 / 3) (-22 / 3) = -82 / 3
  ∧ (∀ x y, objective (20 / 3) (-22 / 3) <= objective x y)
  ∧ Rabs (20 / 3 - 6666667 / 1000000) < 1 / 1000000
  ∧ Rabs (-22 / 3 - -7333333 / 1000000) < 1 / 1000000
  ∧ Rabs (-82 / 3 - -273333 / 10000) < 1 / 10000.
Proof.
  split; [|split; [|split]].
  - intros x y. rewrite gradient_R. split.
    + intros [= Hx Hy]. lra.
    + intros [-> ->]. f_equal. f_equal; lra.
  - rewrite objective_R. unfold f_doc. lra.
  - intros x y. rewrite (objective_R x y), (objective_R (20 / 3)).
    unfold f_doc.
    pose proof (pow2_ge_0 (x - 20 / 3 + (y + 22 / 3) / 2)) as Ha.
    pose proof (pow2_ge_0 (y + 22 / 3)) as Hb.
    lra.
  - repeat split; apply Rabs_def1; lra.
Qed.

(** C4. The point (43/6, -47/6) satisfies the bounds [-50, 50] on both
    design variables and the constraint x - y >= 15; the objective there is
    -325/12, and no point that satisfies them has a smaller objective.  In
    decimals the point is (7.1667, -7.8333) and the value -27.0833. *)
Theorem constrained_minimum :
  feasible (43 / 6) (-47 / 6)
  ∧ objective (43 / 6) (-47 / 6) = -325 / 12
  ∧ (∀ x y, feasible x y → -325 / 12 <= objective x y)
  ∧ Rabs (43 / 6 - 71667 / 10000) < 1 / 10000
  ∧ Rabs (-47 / 6 - -78333 / 10000) < 1 / 10000
  ∧ Rabs (-325 / 12 - -270833 / 10000) < 1 / 10000.
Proof.
  split; [|split; [|split]].
  - unfold feasible, con_c, desvar_lower, desvar_upper, constraint_lower.
    simpl. lra.
  - rewrite objective_R. unfold f_doc. lra.
  - intros x y (_ & _ & Hc). rewrite objective_R.
    unfold con_c, constraint_lower in Hc. simpl in Hc. unfold f_doc.
    pose proof (pow2_ge_0 (x - 43 / 6 + (y + 47 / 6) / 2)) as Ha.
    pose proof (pow2_ge_0 (y + 47 / 6)) as Hb.
    lra.
  - repeat split; apply Rabs_def1; lra.
Qed.

(** C5, as stated, fails in binary64: at (3, -4) with the step 1e-16 the
    points x+h and x-h both round to x, and y+h and y-h to y, so both
    central-difference quotients of the [solve_nonlinear] objective are 0,
    while [linearize] returns (-4, 3); neither is within the relative
    tolerance 1e-6. *)
Lemma central_difference_b64_misses_gradient :
  PrimFloat.is_zero step_1e_16 = false
  ∧ gradient 3%float (-4)%float = Some ((-4)%float, 3%float)
  ∧ central_difference_b64 (fun t => objective t (-4)%float) 3 step_1e_16
    = 0%float
  ∧ central_difference_b64 (fun t => objective 3%float t) (-4) step_1e_16
    = 0%float
  ∧ within_rel_tol_b64 tol_1e_6 0 (-4) = false
  ∧ within_rel_tol_b64 tol_1e_6 0 3 = false.
Proof. repeat split; vm_compute; reflexivity. Qed.

(** C5, amended. Over the real numbers, for every point and every nonzero
    step [h], the two entries that [linearize] returns are exactly the
    central-difference quotients of the [solve_nonlinear] objective with
    step [h]. *)
Theorem gradient_matches_central_difference x y h :
  h ≠ 0 →
  ∃ dx dy,
    gradient x y = Some (dx, dy)
    ∧ central_difference (fun t => objective t y) x h = dx
    ∧ central_difference (fun t => objective x t) y h = dy.
Proof.
  intros Hh. exists (2 * x - 6 + y), (2 * y + 8 + x).
  split; [apply gradient_R|]. unfold central_difference.
  rewrite (objective_R (x + h) y), (objective_R (x - h) y),
    (objective_R x (y + h)), (objective_R x (y - h)).
  unfold f_doc. split; field; exact Hh.
Qed.

(** C9. The component declares [x] and [y] with default 0.0 and [f_xy] with
    shape 1; after set-up the parameters hold their defaults and [f_xy] is
    the scalar 0.0; and [solve_nonlinear] on these vectors, with no input
    supplied, ends normally and sets [f_xy] to 22.0. *)
Theorem default_parameters_give_22 :
  init_params_dict Paraboloid__init__ = {[ "x" := 0; "y" := 0 ]}
  ∧ init_unknowns_dict (T := R) Paraboloid__init__ = {[ "f_xy" := 1%N ]}
  ∧ params (setup Paraboloid__init__) = {[ "x" := 0; "y" := 0 ]}
  ∧ unknowns (setup Paraboloid__init__) = {[ "f_xy" := 0 ]}
  ∧ (solve_nonlinear (setup Paraboloid__init__)).1 = inr tt
  ∧ unknowns (solve_nonlinear (setup Paraboloid__init__)).2 = {[ "f_xy" := 22 ]}.
Proof.
  assert (Hp : init_params_dict (T := R) Paraboloid__init__
               = {[ "x" := 0; "y" := 0 ]}).
  { apply map_eq. intros k.
    unfold Paraboloid__init__, add_output, add_param; cbn [init_params_dict].
    destruct (decide (k = "y")) as [->|Hy]; [by simplify_map_eq|].
    destruct (decide (k = "x")) as [->|Hx]; by simplify_map_eq. }
  assert (Hu : unknowns (T := R) (setup Paraboloid__init__) = {[ "f_xy" := 0 ]}).
  { unfold setup, Paraboloid__init__, add_output, add_param;
      cbn [unknowns init_unknowns_dict].
    rewrite insert_empty, omap_singleton_Some with (y := 0); [done|].
    by rewrite decide_True. }
  split; [exact Hp|]. split; [done|]. split; [exact Hp|]. split; [exact Hu|].
  rewrite (solve_nonlinear_run _ 0 0 ((0 - 3) ^ 2) ((0 + 4) ^ 2)).
  - cbn [fst snd unknowns]. split; [done|].
    rewrite Hu, insert_singleton_eq. f_equal. simpl. lra.
  - change (init_params_dict (T := R) Paraboloid__init__ !! "x" = Some 0).
    rewrite Hp. by rewrite lookup_insert_eq.
  - change (init_params_dict (T := R) Paraboloid__init__ !! "y" = Some 0).
    rewrite Hp. by rewrite lookup_insert_ne, lookup_singleton_eq.
  - apply pow_R.
  - apply pow_R.
Qed.

End Reals.

(** ** Squares: the power operator against a product *)

(** The two evaluators agree in an arithmetic whose [a ** 2] is [a * a]. *)
Lemma power_form_is_product_form {T} `{PyNum T} :
  (∀ a : T, pow a 2 = Some (a * a)%py) →
  ∀ s : vecs T, solve_nonlinear s = solve_nonlinear_mul s.
Proof.
  intros Hsq s.
  destruct (solve_nonlinear_cases s)
    as [(x & y & a & b & Hx & Hy & Ha & Hb)
       |[(x & y & Hx & Hy & Hp)|(k & _ & _ & E & E' & _)]].
  - rewrite (solve_nonlinear_run s x y a b), (solve_nonlinear_mul_run s x y)
      by done.
    rewrite Hsq in Ha, Hb. by injection Ha as <-; injection Hb as <-.
  - rewrite !Hsq in Hp. by destruct Hp.
  - by rewrite E, E'.
Qed.

(** C8, as stated, fails: on symbolic inputs the evaluator applies the power
    operator twice and multiplies once (the product x*y), while the
    multiplication form multiplies three times and never takes a power; the
    two runs store different results, so the evaluators are not the same in
    every arithmetic. *)
Lemma squares_are_powers_not_products :
  count_pow (objective (TVar "x") (TVar "y")) = 2
  ∧ count_mul (objective (TVar "x") (TVar "y")) = 1
  ∧ solve_nonlinear (supplied (TVar "x") (TVar "y"))
    ≠ solve_nonlinear_mul (supplied (TVar "x") (TVar "y"))
  ∧ ¬ (∀ (T : Type) (HT : PyNum T) (s : vecs T),
         solve_nonlinear s = solve_nonlinear_mul s).
Proof.
  assert (Hne : solve_nonlinear (supplied (TVar "x") (TVar "y"))
                ≠ solve_nonlinear_mul (supplied (TVar "x") (TVar "y"))).
  { rewrite (@solve_nonlinear_run term term_num _ (TVar "x") (TVar "y")
               (TPow (TSub (TVar "x") (TLit 3)) 2)
               (TPow (TAdd (TVar "y") (TLit 4)) 2)
               (supplied_x _ _) (supplied_y _ _) eq_refl eq_refl).
    rewrite (solve_nonlinear_mul_run _ _ _ (supplied_x _ _) (supplied_y _ _)).
    intros Heq. apply (f_equal (fun r => unknowns r.2 !! "f_xy")) in Heq.
    cbn [snd unknowns] in Heq. rewrite !lookup_insert_eq in Heq.
    discriminate Heq. }
  split; [reflexivity|]. split; [reflexivity|].
  split; [exact Hne|]. intros Hall. apply Hne, Hall.
Qed.

(** C8, amended. Each square in the evaluator is an application of the power
    operator with exponent 2, two per run, and the only multiplication is
    x*y; over exact arithmetic, real or rational, the evaluator computes on
    every input the same result as the multiplication form. *)
Theorem squares_equal_products_in_exact_arithmetic :
  count_pow (objective (TVar "x") (TVar "y")) = 2
  ∧ count_mul (objective (TVar "x") (TVar "y")) = 1
  ∧ (∀ s : vecs R, solve_nonlinear s = solve_nonlinear_mul s)
  ∧ (∀ s : vecs Q, solve_nonlinear s = solve_nonlinear_mul s).
Proof.
  split; [reflexivity|]. split; [reflexivity|]. split.
  - apply power_form_is_product_form. intros a. simpl. f_equal. ring.
  - apply power_form_is_product_form. intros a. reflexivity.
Qed.

(** ** The theorems at concrete inputs *)

(** C7, as stated, fails: with both parameters present and finite, x = 0
    and y = 2^600, [linearize] returns its dictionary but [solve_nonlinear]
    raises [OverflowError] from (y+4.0)**2 and stores nothing, where the
    multiplication form would store an infinity. *)
Lemma solve_nonlinear_fails_on_finite_inputs :
  params vecs_big_y !! "x" = Some 0%float
  ∧ params vecs_big_y !! "y" = Some 0x1p600%float
  ∧ PrimFloat.is_finite 0%float = true
  ∧ PrimFloat.is_finite 0x1p600%float = true
  ∧ (∃ J, (linearize vecs_big_y).1 = inr J)
  ∧ (solve_nonlinear vecs_big_y).1 = inl OverflowError
  ∧ (solve_nonlinear vecs_big_y).2 = vecs_big_y
  ∧ unknowns (solve_nonlinear_mul vecs_big_y).2 !! "f_xy" = Some infinity.
Proof.
  split; [reflexivity|]. split; [reflexivity|]. split; [reflexivity|].
  split; [reflexivity|]. split; [eexists; vm_compute; reflexivity|].
  repeat split; vm_compute; reflexivity.
Qed.

Lemma solve_nonlinear_closed_form_witness :
  params first_run !! "x" = Some 3%R
  ∧ params first_run !! "y" = Some (-4)%R
  ∧ (solve_nonlinear first_run).1 = inr tt
  ∧ unknowns (solve_nonlinear first_run).2 !! "f_xy"
    = Some ((3 - 3) ^ 2 + 3 * -4 + (-4 + 4) ^ 2 - 3)%R.
Proof.
  split; [reflexivity|]. split; [reflexivity|].
  apply (proj1 solve_nonlinear_closed_form first_run 3%R (-4)%R); reflexivity.
Defined.

Lemma linearize_exact_gradient_witness :
  params first_run !! "x" = Some 3%R
  ∧ params first_run !! "y" = Some (-4)%R
  ∧ ∃ J, (linearize first_run).1 = inr J
         ∧ J !! ("f_xy", "x") = Some (2 * 3 - 6 + -4)%R
         ∧ J !! ("f_xy", "y") = Some (2 * -4 + 8 + 3)%R.
Proof.
  split; [reflexivity|]. split; [reflexivity|].
  apply (linearize_exact_gradient first_run 3%R (-4)%R); reflexivity.
Defined.

Lemma unconstrained_minimum_witness :
  ((20 / 3 = 20 / 3)%R ∧ (-22 / 3 = -22 / 3)%R)
  ∧ gradient (20 / 3)%R (-22 / 3)%R = Some (0%R, 0%R).
Proof.
  split; [split; reflexivity|].
  apply (proj1 unconstrained_minimum (20 / 3)%R (-22 / 3)%R).
  split; reflexivity.
Defined.

Lemma constrained_minimum_witness :
  feasible 10 (-10) ∧ (-325 / 12 <= objective 10 (-10))%R.
Proof.
  assert (Hf : feasible 10 (-10)).
  { unfold feasible, con_c, desvar_lower, desvar_upper, constraint_lower.
    simpl. lra. }
  split; [exact Hf|].
  apply (proj1 (proj2 (proj2 constrained_minimum)) 10%R (-10)%R Hf).
Defined.

Lemma gradient_matches_central_difference_witness :
  (1 ≠ 0)%R
  ∧ ∃ dx dy,
      gradient 3%R (-4)%R = Some (dx, dy)
      ∧ central_difference (fun t => objective t (-4)%R) 3 1 = dx
      ∧ central_difference (fun t => objective 3%R t) (-4) 1 = dy.
Proof.
  assert (H1 : (1 ≠ 0)%R) by lra.
  split; [exact H1|].
  exact (gradient_matches_central_difference 3%R (-4)%R 1%R H1).
Defined.

Lemma evaluators_deterministic_witness :
  params vecs_a !! "x" = params vecs_b !! "x"
  ∧ params vecs_a !! "y" = params vecs_b !! "y"
  ∧ unknowns (solve_nonlinear vecs_a).2 !! "f_xy"
    = unknowns (solve_nonlinear vecs_b).2 !! "f_xy"
  ∧ (linearize vecs_a).1 = (linearize vecs_b).1.
Proof.
  split; [reflexivity|]. split; [reflexivity|].
  destruct (evaluators_deterministic vecs_a vecs_b eq_refl eq_refl)
    as (_ & Hf & Hl & _).
  split; [apply Hf; reflexivity | exact Hl].
Defined.

Lemma evaluators_total_witness :
  params vecs_b !! "x" = Some 5%Q
  ∧ params vecs_b !! "y" = Some 2%Q
  ∧ (∃ J, linearize vecs_b = (inr J, vecs_b)
          ∧ is_Some (J !! ("f_xy", "x")) ∧ is_Some (J !! ("f_xy", "y")))
  ∧ (((solve_nonlinear vecs_b).1 = inr tt
      ∧ is_Some (unknowns (solve_nonlinear vecs_b).2 !! "f_xy"))
     ∨ (solve_nonlinear vecs_b = (inl OverflowError, vecs_b)
        ∧ (pow (5 - flit 3)%Q 2 = None ∨ pow (2 + flit 4)%Q 2 = None))).
Proof.
  split; [reflexivity|]. split; [reflexivity|].
  exact (proj1 evaluators_total vecs_b 5%Q 2%Q eq_refl eq_refl).
Defined.


(** ** Further properties of the methods, in every arithmetic *)

Section MoreAnyArithmetic.
Context {T : Type} `{PyNum T}.
Implicit Types (s : vecs T) (x y : T).

(** X1. Both methods read [params['x']] first and [params['y']] second: with
    [x] missing they raise [KeyError('x')], also when [y] is missing too; with
    [x] present and [y] missing they raise [KeyError('y')].  In each case the
    vectors are left exactly as they were: nothing is written before the
    exception. *)
Theorem missing_parameter_raises s :
  (params s !! "x" = None →
     solve_nonlinear s = (inl (KeyError "x"), s)
     ∧ linearize s = (inl (KeyError "x"), s))
  ∧ (is_Some (params s !! "x") → params s !! "y" = None →
     solve_nonlinear s = (inl (KeyError "y"), s)
     ∧ linearize s = (inl (KeyError "y"), s)).
Proof.
  split.
  - apply run_missing_x.
  - intros [x Hx] Hy. by apply (run_missing_y s x).
Qed.

(** X2. [solve_nonlinear] never removes a key from [unknowns]; when it ends
    normally the keys afterwards are the keys before together with ['f_xy'],
    which is created if it was absent; when it raises, the keys are the
    same. *)
Theorem solve_nonlinear_keys s :
  dom (unknowns s) ⊆ dom (unknowns (solve_nonlinear s).2)
  ∧ ((solve_nonlinear s).1 = inr tt →
       dom (unknowns (solve_nonlinear s).2) = {[ "f_xy" ]} ∪ dom (unknowns s)
       ∧ is_Some (unknowns (solve_nonlinear s).2 !! "f_xy"))
  ∧ (∀ e, (solve_nonlinear s).1 = inl e →
       dom (unknowns (solve_nonlinear s).2) = dom (unknowns s)).
Proof.
  destruct (solve_nonlinear_outcome s) as [[v E]|[e E]]; rewrite E.
  - cbn [fst snd unknowns].
    rewrite dom_insert_L. split; [set_solver|]. split; [|done].
    intros _. split; [done|]. rewrite lookup_insert_eq. eauto.
  - cbn [fst snd]. split; [done|]. split; [done|]. done.
Qed.

(** X3. The keys of the dictionary that [linearize] returns are exactly the
    pairs (output, parameter) of the variables that [__init__] declares:
    every declared output has a derivative with respect to every declared
    parameter, and there is no other entry. *)
Theorem jacobian_keys_are_declared_pairs s (J : gmap (string * string) T) :
  (linearize s).1 = inr J →
  ∀ u p,
    (u, p) ∈ dom J
    ↔ u ∈ dom (init_unknowns_dict (T := T) Paraboloid__init__)
      ∧ p ∈ dom (init_params_dict (T := T) Paraboloid__init__).
Proof.
  intros HJ u p.
  destruct (params s !! "x") as [x|] eqn:Hx;
    [destruct (params s !! "y") as [y|] eqn:Hy|];
    [|rewrite (proj2 (run_missing_y s x Hx Hy)) in HJ; discriminate HJ
     |rewrite (proj2 (run_missing_x s Hx)) in HJ; discriminate HJ].
  - rewrite (linearize_run s x y) in HJ by done. injection HJ as <-.
    unfold Paraboloid__init__, add_output, add_param;
      cbn [init_unknowns_dict init_params_dict].
    rewrite !dom_insert_L, !dom_empty_L.
    rewrite !elem_of_union, !elem_of_singleton, !elem_of_empty.
    split.
    + intros [[= -> ->]|[[= -> ->]|[]]]; tauto.
    + intros [[-> | []] [-> | [-> | []]]]; tauto.
Qed.

(** X4. [linearize] ends normally exactly when the vectors hold every
    parameter that [__init__] declares, and [solve_nonlinear] needs them
    too; with them present [solve_nonlinear] never raises [KeyError], so it
    can only fail with the [OverflowError] of a square; parameters beyond
    the declared ones do no harm. *)
Theorem declared_params_and_success s :
  ((∃ J, (linearize s).1 = inr J)
   ↔ dom (init_params_dict (T := T) Paraboloid__init__) ⊆ dom (params s))
  ∧ ((solve_nonlinear s).1 = inr tt →
     dom (init_params_dict (T := T) Paraboloid__init__) ⊆ dom (params s))
  ∧ (dom (init_params_dict (T := T) Paraboloid__init__) ⊆ dom (params s) →
     (solve_nonlinear s).1 = inr tt ∨ (solve_nonlinear s).1 = inl OverflowError).
Proof.
  assert (Hd : dom (init_params_dict (T := T) Paraboloid__init__)
               = ({[ "x"; "y" ]} : gset string)).
  { unfold Paraboloid__init__, add_output, add_param; cbn [init_params_dict].
    rewrite !dom_insert_L, dom_empty_L. set_solver. }
  rewrite Hd.
  destruct (solve_nonlinear_cases s)
    as [(x & y & a & b & Hx & Hy & Ha & Hb)
       |[(x & y & Hx & Hy & Hp)|(k & Hk & Hn & E & _ & L)]].
  - assert (Hsub : ({[ "x"; "y" ]} : gset string) ⊆ dom (params s)).
    { intros k Hk. apply elem_of_dom.
      apply elem_of_union in Hk as [Hk|Hk]; apply elem_of_singleton in Hk;
        subst k; eauto. }
    rewrite (solve_nonlinear_run s x y a b), (linearize_run s x y) by done.
    cbn [fst]. split; [split; eauto|]. split; eauto.
  - assert (Hsub : ({[ "x"; "y" ]} : gset string) ⊆ dom (params s)).
    { intros k Hk. apply elem_of_dom.
      apply elem_of_union in Hk as [Hk|Hk]; apply elem_of_singleton in Hk;
        subst k; eauto. }
    rewrite (solve_nonlinear_overflow s x y), (linearize_run s x y) by done.
    cbn [fst]. split; [split; eauto|]. split; eauto.
  - rewrite E, L. cbn [fst].
    assert (Hnot : ¬ ({[ "x"; "y" ]} : gset string) ⊆ dom (params s)).
    { intros Hsub. apply not_elem_of_dom in Hn. apply Hn, Hsub.
      destruct Hk as [-> | ->]; set_solver. }
    split; [split; [intros [J HJ]; discriminate HJ | done]|].
    split; [discriminate | done].
Qed.

(** X5. The two methods can be called in either order: [linearize] followed
    by [solve_nonlinear] and [solve_nonlinear] followed by [linearize] end
    the same way, with the same dictionary returned and the same vectors. *)
Theorem methods_commute s :
  (J ← linearize; _ ← solve_nonlinear; mret J) s
  = (_ ← solve_nonlinear; linearize) s.
Proof.
  destruct (solve_nonlinear_cases s)
    as [(x & y & a & b & Hx & Hy & Ha & Hb)
       |[(x & y & Hx & Hy & Hp)|(k & Hk & Hn & E & _ & L)]].
  - unfold mbind at 1 3, M_bind.
    rewrite (linearize_run s x y), (solve_nonlinear_run s x y a b) by done.
    unfold mbind, M_bind.
    rewrite (solve_nonlinear_run s x y a b), (linearize_run _ x y) by done.
    done.
  - unfold mbind at 1 3, M_bind.
    rewrite (linearize_run s x y), (solve_nonlinear_overflow s x y) by done.
    unfold mbind, M_bind.
    by rewrite (solve_nonlinear_overflow s x y) by done.
  - unfold mbind, M_bind. by rewrite L, E.
Qed.

End MoreAnyArithmetic.

(** ** Further properties over the real numbers *)

Section MoreReals.
Implicit Types (x y a b h : R).
Local Open Scope R_scope.

Lemma sq_zero a : a ^ 2 = 0 → a = 0.
Proof. intros Ha. apply Rsqr_0_uniq. unfold Rsqr. lra. Qed.

(** X8. The dictionary that [linearize] returns is the exact linearisation
    of what [solve_nonlinear] computes: moving from [(x, y)] by [(a, b)]
    changes the objective by the two entries applied to [(a, b)] plus
    a^2 + a*b + b^2, which is never negative, so the tangent plane lies below
    the objective everywhere; and the entries themselves change by
    (2a + b, a + 2b). *)
Theorem linearize_is_exact_linearization x y a b :
  ∃ dx dy,
    gradient x y = Some (dx, dy)
    ∧ objective (x + a) (y + b)
      = objective x y + (dx * a + dy * b) + (a ^ 2 + a * b + b ^ 2)
    ∧ objective x y + (dx * a + dy * b) <= objective (x + a) (y + b)
    ∧ gradient (x + a) (y + b) = Some (dx + (2 * a + b), dy + (a + 2 * b)).
Proof.
  exists (2 * x - 6 + y), (2 * y + 8 + x).
  rewrite (objective_R (x + a)), (objective_R x), (gradient_R x), (gradient_R (x + a)).
  unfold f_doc. split; [done|]. split; [ring|]. split.
  - pose proof (pow2_ge_0 (a + b / 2)) as Ha.
    pose proof (pow2_ge_0 b) as Hb. lra.
  - f_equal. f_equal; ring.
Qed.

(** X10. The unconstrained minimum is attained at one point only: the
    objective equals -82/3 exactly at (20/3, -22/3), and elsewhere it exceeds
    -82/3 by at least half the squared distance to that point. *)
Theorem unconstrained_minimiser_unique x y :
  (objective x y = -82 / 3 ↔ x = 20 / 3 ∧ y = -22 / 3)
  ∧ -82 / 3 + ((x - 20 / 3) ^ 2 + (y + 22 / 3) ^ 2) / 2 <= objective x y.
Proof.
  rewrite objective_R. unfold f_doc.
  assert (Hg : -82 / 3 + ((x - 20 / 3) ^ 2 + (y + 22 / 3) ^ 2) / 2
               <= (x - 3) ^ 2 + x * y + (y + 4) ^ 2 - 3).
  { pose proof (pow2_ge_0 (x - 20 / 3 + (y + 22 / 3))) as Ha. lra. }
  split; [|exact Hg]. split.
  - intros Heq.
    pose proof (pow2_ge_0 (x - 20 / 3)) as Ha.
    pose proof (pow2_ge_0 (y + 22 / 3)) as Hb.
    assert (Hx : (x - 20 / 3) ^ 2 = 0) by lra.
    assert (Hy : (y + 22 / 3) ^ 2 = 0) by lra.
    apply sq_zero in Hx. apply sq_zero in Hy. lra.
  - intros [-> ->]. lra.
Qed.

Lemma feasible_43_47 : feasible (43 / 6) (-47 / 6).
Proof.
  unfold feasible, con_c, desvar_lower, desvar_upper, constraint_lower.
  simpl. lra.
Qed.

(** Above the line x - y = 15 the objective exceeds -325/12 by a sum of
    squares plus half the slack of the constraint. *)
Lemma objective_gap_on_constraint x y :
  objective x y
  = -325 / 12
    + ((x - 43 / 6 + (y + 47 / 6) / 2) ^ 2 + 3 / 4 * (y + 47 / 6) ^ 2)
    + (x - y - 15) / 2.
Proof. rewrite objective_R. unfold f_doc. field. Qed.

(** X11. Under the bounds and the constraint x - y >= 15 the minimum is
    attained at one point only, (43/6, -47/6), and the constraint holds
    there with equality. *)
Theorem constrained_minimiser_unique x y :
  feasible x y →
  objective x y = -325 / 12 →
  x = 43 / 6 ∧ y = -47 / 6 ∧ con_c x y = 15.
Proof.
  intros (_ & _ & Hc) Heq.
  unfold con_c, constraint_lower in *. simpl in *.
  rewrite objective_gap_on_constraint in Heq.
  pose proof (pow2_ge_0 (x - 43 / 6 + (y + 47 / 6) / 2)) as Ha.
  pose proof (pow2_ge_0 (y + 47 / 6)) as Hb.
  assert (Hy : (y + 47 / 6) ^ 2 = 0) by lra.
  assert (Hx : (x - 43 / 6 + (y + 47 / 6) / 2) ^ 2 = 0) by lra.
  apply sq_zero in Hx. apply sq_zero in Hy. lra.
Qed.

(** X12. With the two-sided constraint 15 <= x - y <= 16 of the last run
    the result is the same as with the one-sided one: every point of the band
    satisfies the one-sided constraint, (43/6, -47/6) lies in the band, and
    no point of the band has an objective below -325/12. *)
Theorem band_constraint_same_minimum :
  feasible_band (43 / 6) (-47 / 6)
  ∧ objective (43 / 6) (-47 / 6) = -325 / 12
  ∧ (∀ x y, feasible_band x y → feasible x y)
  ∧ (∀ x y, feasible_band x y → -325 / 12 <= objective x y)
  ∧ (∀ x y, feasible_band x y → objective x y = -325 / 12 →
       x = 43 / 6 ∧ y = -47 / 6).
Proof.
  assert (Hsub : ∀ x y, feasible_band x y → 15 <= x - y).
  { intros x y (_ & Hc & _). unfold con_c, band_lower in Hc. exact Hc. }
  split; [|split; [|split; [|split]]].
  - unfold feasible_band, in_bounds, con_c, desvar_lower, desvar_upper,
      band_lower, band_upper. simpl. lra.
  - rewrite objective_gap_on_constraint. lra.
  - intros x y Hb. pose proof (Hsub x y Hb) as Hc.
    destruct Hb as ((Hx & Hy) & _). repeat split; try apply Hx; try apply Hy.
    exact Hc.
  - intros x y Hb. pose proof (Hsub x y Hb) as Hc.
    rewrite objective_gap_on_constraint.
    pose proof (pow2_ge_0 (x - 43 / 6 + (y + 47 / 6) / 2)) as Ha.
    pose proof (pow2_ge_0 (y + 47 / 6)) as Hb'. lra.
  - intros x y Hb Heq. pose proof (Hsub x y Hb) as Hc.
    rewrite objective_gap_on_constraint in Heq.
    pose proof (pow2_ge_0 (x - 43 / 6 + (y + 47 / 6) / 2)) as Ha.
    pose proof (pow2_ge_0 (y + 47 / 6)) as Hb'.
    assert (Hy : (y + 47 / 6) ^ 2 = 0) by lra.
    assert (Hx : (x - 43 / 6 + (y + 47 / 6) / 2) ^ 2 = 0) by lra.
    apply sq_zero in Hx. apply sq_zero in Hy. lra.
Qed.

(** X13. The unconstrained optimum (20/3, -22/3) is within the bounds but
    violates the constraint, since x - y is 14 there; and every point that
    satisfies the constraint has an objective at least 1/4 above the
    unconstrained minimum. *)
Theorem unconstrained_optimum_is_infeasible :
  in_bounds (20 / 3) (-22 / 3)
  ∧ con_c (20 / 3) (-22 / 3) = 14
  ∧ ¬ feasible (20 / 3) (-22 / 3)
  ∧ (∀ x y, feasible x y → objective (20 / 3) (-22 / 3) + 1 / 4 <= objective x y).
Proof.
  split; [|split; [|split]].
  - unfold in_bounds, desvar_lower, desvar_upper. simpl. lra.
  - unfold con_c. simpl. lra.
  - intros (_ & _ & Hc). unfold con_c, constraint_lower in Hc. simpl in Hc. lra.
  - intros x y (_ & _ & Hc). unfold con_c, constraint_lower in Hc. simpl in Hc.
    rewrite (objective_gap_on_constraint x y), (objective_R (20 / 3)).
    unfold f_doc.
    pose proof (pow2_ge_0 (x - 43 / 6 + (y + 47 / 6) / 2)) as Ha.
    pose proof (pow2_ge_0 (y + 47 / 6)) as Hb. lra.
Qed.

(** X14. Within the bounds [-50, 50] on both design variables the objective
    is bounded: it lies between -82/3 and 7622, and 7622 is its value at the
    corner (50, 50). *)
Theorem objective_range_within_bounds :
  in_bounds 50 50
  ∧ objective 50 50 = 7622
  ∧ (∀ x y, in_bounds x y → -82 / 3 <= objective x y <= 7622).
Proof.
  split; [|split].
  - unfold in_bounds, desvar_lower, desvar_upper. simpl. lra.
  - rewrite objective_R. unfold f_doc. lra.
  - intros x y (Hx & Hy). unfold desvar_lower, desvar_upper in *. simpl in *.
    rewrite objective_R. unfold f_doc. split.
    + pose proof (pow2_ge_0 (x - 20 / 3 + (y + 22 / 3) / 2)) as Ha.
      pose proof (pow2_ge_0 (y + 22 / 3)) as Hb. lra.
    + assert (Hu : 0 <= (50 - x) * (50 + x)) by (apply Rmult_le_pos; lra).
      assert (Hv : 0 <= (50 - y) * (50 + y)) by (apply Rmult_le_pos; lra).
      assert (Huv : 0 <= (50 - x) * (50 + y)) by (apply Rmult_le_pos; lra).
      assert (Hvu : 0 <= (50 - y) * (50 + x)) by (apply Rmult_le_pos; lra).
      lra.
Qed.

End MoreReals.

(** ** The further properties at concrete inputs *)

Lemma missing_parameter_raises_witness :
  params vecs_no_x !! "x" = None
  ∧ solve_nonlinear vecs_no_x = (inl (KeyError "x"), vecs_no_x)
  ∧ is_Some (params vecs_no_y !! "x")
  ∧ params vecs_no_y !! "y" = None
  ∧ linearize vecs_no_y = (inl (KeyError "y"), vecs_no_y).
Proof.
  assert (Hx : params vecs_no_x !! "x" = None) by reflexivity.
  assert (Hx' : is_Some (params vecs_no_y !! "x")) by (eexists; reflexivity).
  assert (Hy : params vecs_no_y !! "y" = None) by reflexivity.
  split; [exact Hx|].
  split; [exact (proj1 (proj1 (missing_parameter_raises vecs_no_x) Hx))|].
  split; [exact Hx'|]. split; [exact Hy|].
  exact (proj2 (proj2 (missing_parameter_raises vecs_no_y) Hx' Hy)).
Defined.

Lemma solve_nonlinear_keys_witness :
  (solve_nonlinear vecs_b).1 = inr tt
  ∧ dom (unknowns (solve_nonlinear vecs_b).2) = {[ "f_xy" ]} ∪ dom (unknowns vecs_b).
Proof.
  assert (Hr : (solve_nonlinear vecs_b).1 = inr tt) by reflexivity.
  split; [exact Hr|].
  exact (proj1 (proj1 (proj2 (solve_nonlinear_keys vecs_b)) Hr)).
Defined.

Lemma jacobian_keys_are_declared_pairs_witness :
  ∃ J, (linearize vecs_b).1 = inr J
       ∧ (("f_xy", "x") ∈ dom J
          ↔ "f_xy" ∈ dom (init_unknowns_dict (T := Q) Paraboloid__init__)
            ∧ "x" ∈ dom (init_params_dict (T := Q) Paraboloid__init__)).
Proof.
  eexists. split; [reflexivity|].
  exact (jacobian_keys_are_declared_pairs vecs_b _ eq_refl "f_xy" "x").
Defined.

Lemma declared_params_and_success_witness :
  (solve_nonlinear vecs_b).1 = inr tt
  ∧ dom (init_params_dict (T := Q) Paraboloid__init__) ⊆ dom (params vecs_b).
Proof.
  assert (Hr : (solve_nonlinear vecs_b).1 = inr tt) by reflexivity.
  split; [exact Hr|].
  exact (proj1 (proj2 (declared_params_and_success vecs_b)) Hr).
Defined.

Lemma unconstrained_minimiser_unique_witness :
  ((20 / 3 = 20 / 3)%R ∧ (-22 / 3 = -22 / 3)%R)
  ∧ objective (20 / 3)%R (-22 / 3)%R = (-82 / 3)%R.
Proof.
  assert (Hp : (20 / 3 = 20 / 3)%R ∧ (-22 / 3 = -22 / 3)%R) by (split; reflexivity).
  split; [exact Hp|].
  exact (proj2 (proj1 (unconstrained_minimiser_unique (20 / 3)%R (-22 / 3)%R)) Hp).
Defined.

Lemma constrained_minimiser_unique_witness :
  feasible (43 / 6) (-47 / 6)
  ∧ objective (43 / 6)%R (-47 / 6)%R = (-325 / 12)%R
  ∧ con_c (43 / 6)%R (-47 / 6)%R = 15%R.
Proof.
  assert (Hv : objective (43 / 6)%R (-47 / 6)%R = (-325 / 12)%R).
  { rewrite objective_gap_on_constraint. lra. }
  split; [exact feasible_43_47|]. split; [exact Hv|].
  exact (proj2 (proj2 (constrained_minimiser_unique _ _ feasible_43_47 Hv))).
Defined.

Lemma band_constraint_same_minimum_witness :
  feasible_band 10 (-5) ∧ feasible 10 (-5) ∧ (-325 / 12 <= objective 10 (-5))%R.
Proof.
  assert (Hb : feasible_band 10 (-5)).
  { unfold feasible_band, in_bounds, con_c, desvar_lower, desvar_upper,
      band_lower, band_upper. simpl. lra. }
  destruct band_constraint_same_minimum as (_ & _ & Hsub & Hmin & _).
  split; [exact Hb|]. split; [exact (Hsub _ _ Hb) | exact (Hmin _ _ Hb)].
Defined.

Lemma unconstrained_optimum_is_infeasible_witness :
  feasible 10 (-10)
  ∧ (objective (20 / 3) (-22 / 3) + 1 / 4 <= objective 10 (-10))%R.
Proof.
  assert (Hf : feasible 10 (-10)).
  { unfold feasible, con_c, desvar_lower, desvar_upper, constraint_lower.
    simpl. lra. }
  split; [exact Hf|].
  exact (proj2 (proj2 (proj2 unconstrained_optimum_is_infeasible)) _ _ Hf).
Defined.

Lemma objective_range_within_bounds_witness :
  in_bounds (-50) 50 ∧ (-82 / 3 <= objective (-50) 50 <= 7622)%R.
Proof.
  assert (Hb : in_bounds (-50) 50).
  { unfold in_bounds, desvar_lower, desvar_upper. simpl. lra. }
  split; [exact Hb|].
  exact (proj2 (proj2 objective_range_within_bounds) _ _ Hb).
Defined.
